(** * ALSA capture source (modules/alsa/alsa-source.c) and the Avahi poll
      adapter (avahi-wrap.c) of PulseAudio: a shallow embedding and the
      properties of its timer-scheduled capture engine.

    Integers are modelled as [Z] with the wrap-around of their C type written
    out (LP64: [size_t], [pa_usec_t], [uint64_t] and [snd_pcm_uframes_t] are
    64-bit unsigned, [long] and [snd_pcm_sframes_t] 64-bit signed, [int] and
    [unsigned] 32 bits).  Collaborators whose code lives outside the two files
    (sample-spec arithmetic, the PCM driver, the smoother, the generic source
    object) are interfaces: type classes whose operations thread the state of
    the collaborator explicitly. *)

From Stdlib Require Import ZArith List Bool Lia.
Import ListNotations.
Local Open Scope Z_scope.

(* ===================================================================== *)
(** * Machine integers *)
(* ===================================================================== *)

Definition UINT64_MOD : Z := 18446744073709551616.
Definition INT64_HALF : Z := 9223372036854775808.
Definition UINT32_MOD : Z := 4294967296.
Definition INT32_HALF : Z := 2147483648.

(** Conversion to a 64-bit unsigned type ([size_t], [pa_usec_t], ...). *)
Definition u64 (z : Z) : Z := z mod UINT64_MOD.
(** Conversion to [unsigned] / [uint32_t]. *)
Definition u32 (z : Z) : Z := z mod UINT32_MOD.
(** Conversion to [long] / [int64_t] / [snd_pcm_sframes_t]. *)
Definition s64 (z : Z) : Z := (z + INT64_HALF) mod UINT64_MOD - INT64_HALF.
(** Conversion to [int]. *)
Definition s32 (z : Z) : Z := (z + INT32_HALF) mod UINT32_MOD - INT32_HALF.

(** The values a 64-bit unsigned variable can hold. *)
Definition in_u64 (z : Z) : Prop := 0 <= z < UINT64_MOD.

(** [(pa_usec_t) -1], the "no latency requested" marker. *)
Definition PA_USEC_INVALID : Z := UINT64_MOD - 1.

(** Modelled from the spec: the macros PA_USEC_PER_MSEC and PA_MIN come from
    headers that are not part of the two files; the spec gives the step
    constants in milliseconds of a microsecond clock and speaks of "min". *)
Definition PA_USEC_PER_MSEC : Z := 1000.
Definition PA_MIN (a b : Z) : Z := if a <? b then a else b.

Definition TSCHED_WATERMARK_STEP_USEC : Z := 10 * PA_USEC_PER_MSEC.
Definition TSCHED_MIN_SLEEP_USEC : Z := 10 * PA_USEC_PER_MSEC.
Definition TSCHED_MIN_WAKEUP_USEC : Z := 4 * PA_USEC_PER_MSEC.

(* ===================================================================== *)
(** * Data model *)
(* ===================================================================== *)

Record pa_sample_spec := mk_sample_spec {
  ss_format : Z;
  ss_rate : Z;
  ss_channels : Z
}.

Inductive pa_source_state_t :=
| PA_SOURCE_INVALID_STATE
| PA_SOURCE_RUNNING
| PA_SOURCE_IDLE
| PA_SOURCE_SUSPENDED
| PA_SOURCE_INIT
| PA_SOURCE_UNLINKED.

Definition PA_SOURCE_IS_OPENED (s : pa_source_state_t) : bool :=
  match s with
  | PA_SOURCE_RUNNING | PA_SOURCE_IDLE => true
  | _ => false
  end.

(** The part of [pa_source] the engine reads: the sample spec and the
    [thread_info] mirror fields. *)
Record pa_source := mk_source {
  sample_spec : pa_sample_spec;
  thread_info_state : pa_source_state_t;
  thread_info_min_latency : Z;
  thread_info_max_latency : Z;
  thread_info_requested_latency : Z
}.

Variant pa_rtpoll_item := rtpoll_item (n_fds : Z).

(** Calls to collaborators that the properties below speak about, recorded
    in the order they are issued (newest first). *)
Inductive call :=
| Call_avail (n : Z)
| Call_mmap_commit (offset frames sframes : Z)
| Call_readi (frames result : Z)
| Call_source_post (length : Z)
| Call_set_latency_range (min_latency max_latency : Z)
| Call_pcm_open (ok : bool)
| Call_pcm_close
| Call_smoother_get (x : Z).

(** Sample-spec arithmetic of pulse/sample.c and the clamp macro, taken as
    parameters. *)
Class SampleOps := {
  pa_bytes_to_usec : Z -> pa_sample_spec -> Z;
  pa_usec_to_bytes : Z -> pa_sample_spec -> Z;
  pa_bytes_to_usec_round_up : Z -> pa_sample_spec -> Z;
  pa_usec_to_bytes_round_up : Z -> pa_sample_spec -> Z;
  pa_frame_align : Z -> pa_sample_spec -> Z;
  pa_sample_spec_equal : pa_sample_spec -> pa_sample_spec -> bool;
  PA_CLAMP : Z -> Z -> Z -> Z
}.

(** Messages the engine's [process_msg] override looks at; every other
    message code goes to the generic handler untouched. *)
Inductive message :=
| PA_SOURCE_MESSAGE_GET_LATENCY
| PA_SOURCE_MESSAGE_SET_STATE (new_state : pa_source_state_t)
| PA_SOURCE_MESSAGE_OTHER (code : Z).

(** The generic source object (pulsecore/source.c). *)
Class SourceOps := {
  pa_source_get_requested_latency_within_thread : pa_source -> Z;
  pa_source_set_latency_range_within_thread : pa_source -> Z -> Z -> pa_source;
  pa_source_process_msg : pa_source -> message -> pa_source * Z
}.

(** Values negotiated by [pa_alsa_set_hw_params] (its in/out arguments). *)
Record hw_params := mk_hw_params {
  hp_ss : pa_sample_spec;
  hp_periods : Z;
  hp_period_size : Z;
  hp_use_mmap : bool;
  hp_use_tsched : bool
}.

(** What [pa_alsa_safe_mmap_begin] hands back: the error code, the offset and
    number of granted frames, and [first]/[step] of the first channel area. *)
Record mmap_begin_result := mk_mmap_begin {
  mb_err : Z;
  mb_offset : Z;
  mb_frames : Z;
  mb_first : Z;
  mb_step : Z
}.

(** The driver adapter: every operation takes the state of the PCM handle and
    returns the new one beside its C result. *)
Class Driver := {
  snd_pcm_t : Type;
  EAGAIN : Z;
  snd_pcm_open : snd_pcm_t + Z;
  pa_alsa_safe_avail : snd_pcm_t -> Z -> pa_sample_spec -> snd_pcm_t * Z;
  snd_pcm_recover : snd_pcm_t -> Z -> snd_pcm_t * Z;
  snd_pcm_start : snd_pcm_t -> snd_pcm_t;
  pa_alsa_safe_mmap_begin :
    snd_pcm_t -> Z -> Z -> pa_sample_spec -> snd_pcm_t * mmap_begin_result;
  snd_pcm_mmap_commit : snd_pcm_t -> Z -> Z -> snd_pcm_t * Z;
  snd_pcm_readi : snd_pcm_t -> Z -> snd_pcm_t * Z;
  pa_alsa_set_hw_params : snd_pcm_t -> hw_params -> Z -> snd_pcm_t * (Z * hw_params);
  pa_alsa_set_sw_params : snd_pcm_t -> Z -> snd_pcm_t * Z;
  pa_alsa_build_pollfd : snd_pcm_t -> option pa_rtpoll_item;
  pa_mempool_block_size_max : Z;
  pa_memblock_new_length : Z
}.

(** The time smoother (pulsecore/time-smoother.c). *)
Class Smoother := {
  pa_smoother : Type;
  pa_smoother_get : pa_smoother -> Z -> Z;
  pa_smoother_pause : pa_smoother -> Z -> pa_smoother;
  pa_smoother_resume : pa_smoother -> Z -> pa_smoother
}.

Section Engine.

Context {sample_ops : SampleOps} {source_ops : SourceOps}
        {driver : Driver} {smoother_ops : Smoother}.

(** [struct userdata], with the ghost field [calls]. *)
Record userdata := mk_userdata {
  source : pa_source;
  pcm_handle : option snd_pcm_t;
  hw_volume_max : Z;
  hw_volume_min : Z;
  frame_size : Z;
  fragment_size : Z;
  hwbuf_size : Z;
  tsched_watermark : Z;
  hwbuf_unused : Z;
  min_sleep : Z;
  min_wakeup : Z;
  watermark_step : Z;
  nfragments : Z;
  use_mmap : bool;
  use_tsched : bool;
  alsa_rtpoll_item : option pa_rtpoll_item;
  smoother : pa_smoother;
  read_count : Z;
  calls : list call
}.

Definition set_source (v : pa_source) (u : userdata) : userdata :=
  mk_userdata v (pcm_handle u) (hw_volume_max u) (hw_volume_min u)
    (frame_size u) (fragment_size u) (hwbuf_size u) (tsched_watermark u)
    (hwbuf_unused u) (min_sleep u) (min_wakeup u) (watermark_step u)
    (nfragments u) (use_mmap u) (use_tsched u) (alsa_rtpoll_item u)
    (smoother u) (read_count u) (calls u).

Definition set_pcm_handle (v : option snd_pcm_t) (u : userdata) : userdata :=
  mk_userdata (source u) v (hw_volume_max u) (hw_volume_min u)
    (frame_size u) (fragment_size u) (hwbuf_size u) (tsched_watermark u)
    (hwbuf_unused u) (min_sleep u) (min_wakeup u) (watermark_step u)
    (nfragments u) (use_mmap u) (use_tsched u) (alsa_rtpoll_item u)
    (smoother u) (read_count u) (calls u).




Definition set_tsched_watermark (v : Z) (u : userdata) : userdata :=
  mk_userdata (source u) (pcm_handle u) (hw_volume_max u) (hw_volume_min u)
    (frame_size u) (fragment_size u) (hwbuf_size u) v
    (hwbuf_unused u) (min_sleep u) (min_wakeup u) (watermark_step u)
    (nfragments u) (use_mmap u) (use_tsched u) (alsa_rtpoll_item u)
    (smoother u) (read_count u) (calls u).

Definition set_hwbuf_unused (v : Z) (u : userdata) : userdata :=
  mk_userdata (source u) (pcm_handle u) (hw_volume_max u) (hw_volume_min u)
    (frame_size u) (fragment_size u) (hwbuf_size u) (tsched_watermark u)
    v (min_sleep u) (min_wakeup u) (watermark_step u)
    (nfragments u) (use_mmap u) (use_tsched u) (alsa_rtpoll_item u)
    (smoother u) (read_count u) (calls u).

Definition set_min_sleep (v : Z) (u : userdata) : userdata :=
  mk_userdata (source u) (pcm_handle u) (hw_volume_max u) (hw_volume_min u)
    (frame_size u) (fragment_size u) (hwbuf_size u) (tsched_watermark u)
    (hwbuf_unused u) v (min_wakeup u) (watermark_step u)
    (nfragments u) (use_mmap u) (use_tsched u) (alsa_rtpoll_item u)
    (smoother u) (read_count u) (calls u).

Definition set_min_wakeup (v : Z) (u : userdata) : userdata :=
  mk_userdata (source u) (pcm_handle u) (hw_volume_max u) (hw_volume_min u)
    (frame_size u) (fragment_size u) (hwbuf_size u) (tsched_watermark u)
    (hwbuf_unused u) (min_sleep u) v (watermark_step u)
    (nfragments u) (use_mmap u) (use_tsched u) (alsa_rtpoll_item u)
    (smoother u) (read_count u) (calls u).



Definition set_alsa_rtpoll_item (v : option pa_rtpoll_item) (u : userdata) : userdata :=
  mk_userdata (source u) (pcm_handle u) (hw_volume_max u) (hw_volume_min u)
    (frame_size u) (fragment_size u) (hwbuf_size u) (tsched_watermark u)
    (hwbuf_unused u) (min_sleep u) (min_wakeup u) (watermark_step u)
    (nfragments u) (use_mmap u) (use_tsched u) v
    (smoother u) (read_count u) (calls u).

Definition set_smoother (v : pa_smoother) (u : userdata) : userdata :=
  mk_userdata (source u) (pcm_handle u) (hw_volume_max u) (hw_volume_min u)
    (frame_size u) (fragment_size u) (hwbuf_size u) (tsched_watermark u)
    (hwbuf_unused u) (min_sleep u) (min_wakeup u) (watermark_step u)
    (nfragments u) (use_mmap u) (use_tsched u) (alsa_rtpoll_item u)
    v (read_count u) (calls u).

Definition set_read_count (v : Z) (u : userdata) : userdata :=
  mk_userdata (source u) (pcm_handle u) (hw_volume_max u) (hw_volume_min u)
    (frame_size u) (fragment_size u) (hwbuf_size u) (tsched_watermark u)
    (hwbuf_unused u) (min_sleep u) (min_wakeup u) (watermark_step u)
    (nfragments u) (use_mmap u) (use_tsched u) (alsa_rtpoll_item u)
    (smoother u) v (calls u).

Definition set_calls (v : list call) (u : userdata) : userdata :=
  mk_userdata (source u) (pcm_handle u) (hw_volume_max u) (hw_volume_min u)
    (frame_size u) (fragment_size u) (hwbuf_size u) (tsched_watermark u)
    (hwbuf_unused u) (min_sleep u) (min_wakeup u) (watermark_step u)
    (nfragments u) (use_mmap u) (use_tsched u) (alsa_rtpoll_item u)
    (smoother u) (read_count u) v.

(** Record a call to a collaborator. *)
Definition log_call (c : call) (u : userdata) : userdata :=
  set_calls (c :: calls u) u.

(** [&u->source->sample_spec]. *)
Definition spec_of (u : userdata) : pa_sample_spec := sample_spec (source u).

(* ===================================================================== *)
(** * Buffer geometry *)
(* ===================================================================== *)

(** [u->hwbuf_size - u->hwbuf_unused] as the code computes it. *)
Definition max_use_of (u : userdata) : Z := u64 (hwbuf_size u - hwbuf_unused u).

Definition fix_min_sleep_wakeup (u : userdata) : userdata :=
  let max_use := max_use_of u in
  let max_use_2 := pa_frame_align (max_use / 2) (spec_of u) in
  let u := set_min_sleep (pa_usec_to_bytes TSCHED_MIN_SLEEP_USEC (spec_of u)) u in
  let u := set_min_sleep (PA_CLAMP (min_sleep u) (frame_size u) max_use_2) u in
  let u := set_min_wakeup (pa_usec_to_bytes TSCHED_MIN_WAKEUP_USEC (spec_of u)) u in
  set_min_wakeup (PA_CLAMP (min_wakeup u) (frame_size u) max_use_2) u.

Definition fix_tsched_watermark (u : userdata) : userdata :=
  let max_use := max_use_of u in
  let u :=
    if tsched_watermark u >? u64 (max_use - min_sleep u)
    then set_tsched_watermark (u64 (max_use - min_sleep u)) u
    else u in
  if tsched_watermark u <? min_wakeup u
  then set_tsched_watermark (min_wakeup u) u
  else u.

Definition adjust_after_overrun (u : userdata) : userdata :=
  (* First, just try to increase the watermark *)
  let old_watermark := tsched_watermark u in
  let u :=
    set_tsched_watermark
      (PA_MIN (u64 (tsched_watermark u * 2))
              (u64 (tsched_watermark u + watermark_step u))) u in
  let u := fix_tsched_watermark u in
  if negb (old_watermark =? tsched_watermark u) then u
  else
    (* we cannot increase the watermark any further, raise the latency *)
    let old_min_latency := thread_info_min_latency (source u) in
    let new_min_latency :=
      PA_MIN (u64 (old_min_latency * 2))
             (u64 (old_min_latency + TSCHED_WATERMARK_STEP_USEC)) in
    let new_min_latency :=
      PA_MIN new_min_latency (thread_info_max_latency (source u)) in
    if negb (old_min_latency =? new_min_latency) then
      log_call
        (Call_set_latency_range new_min_latency (thread_info_max_latency (source u)))
        (set_source
           (pa_source_set_latency_range_within_thread (source u) new_min_latency
              (thread_info_max_latency (source u))) u)
    else u.

(** [hw_sleep_time]: the returned [usec], then [*sleep_usec] and
    [*process_usec]. *)
Definition hw_sleep_time (u : userdata) : Z * (Z * Z) :=
  let usec := pa_source_get_requested_latency_within_thread (source u) in
  let usec :=
    if usec =? PA_USEC_INVALID
    then pa_bytes_to_usec (hwbuf_size u) (spec_of u)
    else usec in
  let wm := pa_bytes_to_usec (tsched_watermark u) (spec_of u) in
  let wm := if wm >? usec then usec / 2 else wm in
  (usec, (u64 (usec - wm), wm)).

(** [check_left_to_record]: the state afterwards and the returned
    [left_to_record]. *)
Definition check_left_to_record (u : userdata) (n_bytes : Z) : userdata * Z :=
  let rec_space := u64 (hwbuf_size u - hwbuf_unused u) in
  if n_bytes <=? rec_space then (u, u64 (rec_space - n_bytes))
  else ((if use_tsched u then adjust_after_overrun u else u), 0).

(* ===================================================================== *)
(** * Driver access *)
(* ===================================================================== *)

(** A result of [None] stands for a call that does not return: a failed
    [pa_assert], a dereferenced NULL handle, or a loop that is still running
    when the fuel is used up. *)
Notation "' p <- e ;; k" :=
  (match e with Some p => k | None => None end)
  (at level 10, p pattern, e at level 100, k at level 200).

(** Run a driver operation on [u->pcm_handle]. *)
Definition with_pcm {A : Type} (u : userdata) (f : snd_pcm_t -> snd_pcm_t * A)
  : option (userdata * A) :=
  match pcm_handle u with
  | Some d => let (d', a) := f d in Some (set_pcm_handle (Some d') u, a)
  | None => None
  end.

Definition try_recover (u : userdata) (err : Z) : option (userdata * Z) :=
  if negb (err <? 0) then None                (* pa_assert(err < 0) *)
  else if err =? - EAGAIN then None           (* pa_assert(err != -EAGAIN) *)
  else
    '(u, err) <- with_pcm u (fun d => snd_pcm_recover d err) ;;
    if err <? 0 then Some (u, -1)
    else
      '(u, _) <- with_pcm u (fun d => (snd_pcm_start d, tt)) ;;
      Some (u, 0).

(* ===================================================================== *)
(** * Capture paths *)
(* ===================================================================== *)

(** How the inner [for (;;)] of a capture path is left: by [break], with the
    value of [work_done], or by [return r]. *)
Inductive inner_exit :=
| Inner_break (u : userdata) (work_done : bool)
| Inner_return (u : userdata) (r : Z).

(** How the outer [for (;;)] is left: by [break], with [work_done] and
    [left_to_record], or by [return r]. *)
Inductive loop_exit :=
| Loop_break (u : userdata) (work_done : bool) (left_to_record : Z)
| Loop_return (u : userdata) (r : Z).

(** The four assertions on [areas[0]]. *)
Definition areas_ok (u : userdata) (mb : mmap_begin_result) : bool :=
  (Z.land (mb_first mb) 7 =? 0) && (Z.land (mb_step mb) 7 =? 0) &&
  (Z.shiftr (mb_first mb) 3 =? 0) && (Z.shiftr (mb_step mb) 3 =? frame_size u).

Fixpoint mmap_read_inner (fuel : nat) (u : userdata) (n_bytes : Z) (work_done : bool)
  : option inner_exit :=
  match fuel with
  | O => None
  | S fuel =>
    let frames := n_bytes / frame_size u in
    '(u, mb) <- with_pcm u (fun d =>
                  pa_alsa_safe_mmap_begin d frames (hwbuf_size u) (spec_of u)) ;;
    if mb_err mb <? 0 then
      '(u, r) <- try_recover u (mb_err mb) ;;
      if r =? 0 then mmap_read_inner fuel u n_bytes work_done
      else Some (Inner_return u r)
    else
      let frames := mb_frames mb in
      (* the memblocks must fit into one slot if they need to be copied *)
      let frames :=
        if frames >? pa_mempool_block_size_max / frame_size u
        then pa_mempool_block_size_max / frame_size u
        else frames in
      if negb (areas_ok u mb) then None
      else
        (* chunk.length = pa_memblock_get_length(chunk.memblock) *)
        let length := u64 (frames * frame_size u) in
        let u := log_call (Call_source_post length) u in
        '(u, sframes) <- with_pcm u (fun d =>
                           snd_pcm_mmap_commit d (mb_offset mb) frames) ;;
        let u := log_call (Call_mmap_commit (mb_offset mb) frames sframes) u in
        if sframes <? 0 then
          '(u, r) <- try_recover u (s32 sframes) ;;
          if r =? 0 then mmap_read_inner fuel u n_bytes work_done
          else Some (Inner_return u r)
        else
          let work_done := true in
          let u := set_read_count (u64 (read_count u + u64 (frames * frame_size u))) u in
          if u64 (frames * frame_size u) >=? n_bytes
          then Some (Inner_break u work_done)
          else mmap_read_inner fuel u (u64 (n_bytes - u64 (frames * frame_size u)))
                 work_done
  end.

Fixpoint mmap_read_loop (fuel : nat) (u : userdata) (polled : bool) (j : Z)
    (work_done : bool) (process_usec max_sleep_usec : Z) : option loop_exit :=
  match fuel with
  | O => None
  | S fuel =>
    '(u, n) <- with_pcm u (fun d => pa_alsa_safe_avail d (hwbuf_size u) (spec_of u)) ;;
    let u := log_call (Call_avail n) u in
    if n <? 0 then
      '(u, r) <- try_recover u (s32 n) ;;
      if r =? 0
      then mmap_read_loop fuel u polled j work_done process_usec max_sleep_usec
      else Some (Loop_return u r)
    else
      let n_bytes := u64 (u64 n * frame_size u) in
      let (u, left_to_record) := check_left_to_record u n_bytes in
      if use_tsched u && negb polled &&
         (pa_bytes_to_usec left_to_record (spec_of u)
            >? u64 (process_usec + max_sleep_usec / 2))
      then Some (Loop_break u work_done left_to_record)      (* too early *)
      else if n_bytes <=? 0
      then Some (Loop_break u work_done left_to_record)      (* not necessary *)
      else
        let j := u32 (j + 1) in
        if j >? 10
        then Some (Loop_break u work_done left_to_record)    (* too many iterations *)
        else
          match mmap_read_inner fuel u n_bytes work_done with
          | None => None
          | Some (Inner_return u r) => Some (Loop_return u r)
          | Some (Inner_break u work_done) =>
              mmap_read_loop fuel u false j work_done process_usec max_sleep_usec
          end
  end.

(** [mmap_read(u, &sleep_usec, polled)]: the state afterwards, the returned
    [int] and the value of [*sleep_usec] afterwards. *)
Definition mmap_read (fuel : nat) (u : userdata) (sleep_usec : Z) (polled : bool)
  : option (userdata * (Z * Z)) :=
  let '(max_sleep_usec, process_usec) :=
    if use_tsched u then snd (hw_sleep_time u) else (0, 0) in
  match mmap_read_loop fuel u polled 0 false process_usec max_sleep_usec with
  | None => None
  | Some (Loop_return u r) => Some (u, (r, sleep_usec))
  | Some (Loop_break u work_done left_to_record) =>
      Some (u, ((if work_done then 1 else 0),
                u64 (pa_bytes_to_usec left_to_record (spec_of u) - process_usec)))
  end.

Fixpoint unix_read_inner (fuel : nat) (u : userdata) (n_bytes : Z) (work_done : bool)
  : option inner_exit :=
  match fuel with
  | O => None
  | S fuel =>
    (* chunk.memblock = pa_memblock_new(u->core->mempool, (size_t) -1) *)
    let frames := s64 (pa_memblock_new_length / frame_size u) in
    let frames :=
      if frames >? s64 (n_bytes / frame_size u)
      then s64 (n_bytes / frame_size u)
      else frames in
    '(u, result) <- with_pcm u (fun d => snd_pcm_readi d (u64 frames)) ;;
    let u := log_call (Call_readi (u64 frames) result) u in
    let frames := result in
    if frames =? 0 then None                    (* pa_assert(frames != 0) *)
    else if frames <? 0 then
      '(u, r) <- try_recover u (s32 frames) ;;
      if r =? 0 then unix_read_inner fuel u n_bytes work_done
      else Some (Inner_return u r)
    else
      let length := u64 (u64 frames * frame_size u) in
      let u := log_call (Call_source_post length) u in
      let work_done := true in
      let u := set_read_count (u64 (read_count u + u64 (u64 frames * frame_size u))) u in
      if u64 (u64 frames * frame_size u) >=? n_bytes
      then Some (Inner_break u work_done)
      else unix_read_inner fuel u (u64 (n_bytes - u64 (u64 frames * frame_size u)))
             work_done
  end.

Fixpoint unix_read_loop (fuel : nat) (u : userdata) (polled : bool) (j : Z)
    (work_done : bool) (process_usec max_sleep_usec : Z) : option loop_exit :=
  match fuel with
  | O => None
  | S fuel =>
    '(u, n) <- with_pcm u (fun d => pa_alsa_safe_avail d (hwbuf_size u) (spec_of u)) ;;
    let u := log_call (Call_avail n) u in
    if n <? 0 then
      '(u, r) <- try_recover u (s32 n) ;;
      if r =? 0
      then unix_read_loop fuel u polled j work_done process_usec max_sleep_usec
      else Some (Loop_return u r)
    else
      let n_bytes := u64 (u64 n * frame_size u) in
      let (u, left_to_record) := check_left_to_record u n_bytes in
      if use_tsched u && negb polled &&
         (pa_bytes_to_usec left_to_record (spec_of u)
            >? u64 (process_usec + max_sleep_usec / 2))
      then Some (Loop_break u work_done left_to_record)
      else if n_bytes <=? 0
      then Some (Loop_break u work_done left_to_record)
      else
        let j := u32 (j + 1) in
        if j >? 10
        then Some (Loop_break u work_done left_to_record)
        else
          match unix_read_inner fuel u n_bytes work_done with
          | None => None
          | Some (Inner_return u r) => Some (Loop_return u r)
          | Some (Inner_break u work_done) =>
              unix_read_loop fuel u false j work_done process_usec max_sleep_usec
          end
  end.

Definition unix_read (fuel : nat) (u : userdata) (sleep_usec : Z) (polled : bool)
  : option (userdata * (Z * Z)) :=
  let '(max_sleep_usec, process_usec) :=
    if use_tsched u then snd (hw_sleep_time u) else (0, 0) in
  match unix_read_loop fuel u polled 0 false process_usec max_sleep_usec with
  | None => None
  | Some (Loop_return u r) => Some (u, (r, sleep_usec))
  | Some (Loop_break u work_done left_to_record) =>
      Some (u, ((if work_done then 1 else 0),
                u64 (pa_bytes_to_usec left_to_record (spec_of u) - process_usec)))
  end.

(** The "read some data and pass it to the sources" step of one iteration of
    [thread_func]; [polled] is [revents & POLLIN] of the previous wake. *)
Definition thread_func_read (fuel : nat) (u : userdata) (polled : bool)
  : option (userdata * (Z * Z)) :=
  if PA_SOURCE_IS_OPENED (thread_info_state (source u)) then
    if use_mmap u then mmap_read fuel u 0 polled else unix_read fuel u 0 polled
  else Some (u, (0, 0)).

(* ===================================================================== *)
(** * Software parameters and initial geometry *)
(* ===================================================================== *)

(** [update_sw_params]: the state afterwards and the returned [int]. *)
Definition update_sw_params (u : userdata) : option (userdata * Z) :=
  (* Use the full buffer if noone asked us for anything specific *)
  let u := set_hwbuf_unused 0 u in
  let u :=
    if use_tsched u then
      let latency := pa_source_get_requested_latency_within_thread (source u) in
      let u :=
        if negb (latency =? PA_USEC_INVALID) then
          let b := pa_usec_to_bytes latency (spec_of u) in
          (* We need at least one sample in our buffer *)
          let b := if b <? frame_size u then frame_size u else b in
          set_hwbuf_unused
            (if b <? hwbuf_size u then u64 (hwbuf_size u - b) else 0) u
        else u in
      fix_tsched_watermark (fix_min_sleep_wakeup u)
    else u in
  let avail_min := 1 in
  let avail_min :=
    if use_tsched u then
      let sleep_usec := fst (snd (hw_sleep_time u)) in
      u64 (avail_min + pa_usec_to_bytes sleep_usec (spec_of u) / frame_size u)
    else avail_min in
  '(u, err) <- with_pcm u (fun d => pa_alsa_set_sw_params d avail_min) ;;
  if err <? 0 then Some (u, err) else Some (u, 0).



(* ===================================================================== *)
(** * State controller *)
(* ===================================================================== *)

Definition source_get_latency (now1 : Z) (u : userdata) : userdata * Z :=
  let now2 := pa_smoother_get (smoother u) now1 in
  let u := log_call (Call_smoother_get now1) u in
  let delay := s64 (s64 now2 - s64 (pa_bytes_to_usec (read_count u) (spec_of u))) in
  (u, if delay >=? 0 then u64 delay else 0).

Definition build_pollfd (u : userdata) : option (userdata * Z) :=
  match pcm_handle u with
  | None => None                               (* pa_assert(u->pcm_handle) *)
  | Some d =>
    let u := set_alsa_rtpoll_item (pa_alsa_build_pollfd d) u in
    match alsa_rtpoll_item u with
    | None => Some (u, -1)
    | Some _ => Some (u, 0)
    end
  end.

Definition suspend (now : Z) (u : userdata) : option (userdata * Z) :=
  match pcm_handle u with
  | None => None                               (* pa_assert(u->pcm_handle) *)
  | Some _ =>
    let u := set_smoother (pa_smoother_pause (smoother u) now) u in
    (* Let's suspend *)
    let u := set_pcm_handle None (log_call Call_pcm_close u) in
    let u := set_alsa_rtpoll_item None u in
    Some (u, 0)
  end.

(** The [fail:] label of [unsuspend]. *)
Definition unsuspend_fail (u : userdata) : userdata * Z :=
  match pcm_handle u with
  | Some _ => (set_pcm_handle None (log_call Call_pcm_close u), -1)
  | None => (u, -1)
  end.

Definition unsuspend (now : Z) (u : userdata) : option (userdata * Z) :=
  match pcm_handle u with
  | Some _ => None                             (* pa_assert(!u->pcm_handle) *)
  | None =>
    match snd_pcm_open with
    | inr _ => Some (unsuspend_fail (log_call (Call_pcm_open false) u))
    | inl h =>
      let u := set_pcm_handle (Some h) (log_call (Call_pcm_open true) u) in
      let ss := spec_of u in
      let nfrags := nfragments u in
      let period_size := fragment_size u / frame_size u in
      let b := use_mmap u in
      let d := use_tsched u in
      '(u, (err, hp)) <- with_pcm u (fun h =>
                           pa_alsa_set_hw_params h
                             (mk_hw_params ss nfrags period_size b d)
                             (hwbuf_size u / frame_size u)) ;;
      if err <? 0 then Some (unsuspend_fail u)
      else if negb (eqb (hp_use_mmap hp) (use_mmap u))
              || negb (eqb (hp_use_tsched hp) (use_tsched u))
      then Some (unsuspend_fail u)
      else if negb (pa_sample_spec_equal (hp_ss hp) (spec_of u))
      then Some (unsuspend_fail u)
      else if negb (hp_periods hp =? nfragments u)
              || negb (u64 (hp_period_size hp * frame_size u) =? fragment_size u)
      then Some (unsuspend_fail u)
      else
        '(u, r) <- update_sw_params u ;;
        if r <? 0 then Some (unsuspend_fail u)
        else
          '(u, r) <- build_pollfd u ;;
          if r <? 0 then Some (unsuspend_fail u)
          else
            '(u, _) <- with_pcm u (fun h => (snd_pcm_start h, tt)) ;;
            let u := set_smoother (pa_smoother_resume (smoother u) now) u in
            Some (u, 0)
    end
  end.

(** The generic handler the override ends with. *)
Definition parent_process_msg (u : userdata) (m : message)
  : option (userdata * (Z * option Z)) :=
  let (s, r) := pa_source_process_msg (source u) m in
  Some (set_source s u, (r, None)).

(** [source_process_msg]: the state afterwards, the returned [int], and the
    latency written through [data] by GET_LATENCY. *)
Definition source_process_msg (now : Z) (u : userdata) (m : message)
  : option (userdata * (Z * option Z)) :=
  match m with
  | PA_SOURCE_MESSAGE_GET_LATENCY =>
    match pcm_handle u with
    | Some _ => let (u, r) := source_get_latency now u in Some (u, (0, Some r))
    | None => Some (u, (0, Some 0))
    end
  | PA_SOURCE_MESSAGE_SET_STATE PA_SOURCE_SUSPENDED =>
    if negb (PA_SOURCE_IS_OPENED (thread_info_state (source u))) then None
    else
      '(u, r) <- suspend now u ;;
      if r <? 0 then Some (u, (-1, None)) else parent_process_msg u m
  | PA_SOURCE_MESSAGE_SET_STATE PA_SOURCE_IDLE
  | PA_SOURCE_MESSAGE_SET_STATE PA_SOURCE_RUNNING =>
    match thread_info_state (source u) with
    | PA_SOURCE_INIT =>
      '(u, r) <- build_pollfd u ;;
      if r <? 0 then Some (u, (-1, None))
      else
        '(u, _) <- with_pcm u (fun h => (snd_pcm_start h, tt)) ;;
        parent_process_msg u m
    | PA_SOURCE_SUSPENDED =>
      '(u, r) <- unsuspend now u ;;
      if r <? 0 then Some (u, (-1, None)) else parent_process_msg u m
    | _ => parent_process_msg u m
    end
  | _ => parent_process_msg u m
  end.

End Engine.

(* ===================================================================== *)
(** * Specification-level definitions *)
(* ===================================================================== *)

Section EngineSpec.

Context {sample_ops : SampleOps} {source_ops : SourceOps}
        {driver : Driver} {smoother_ops : Smoother}.

(** The wakeup budget in the words of the design: [L] is the requested
    latency or the time of the full hardware buffer, [W] the watermark in
    time form; the result is [(sleep, process)]. *)
Definition wakeup_budget_spec (L W : Z) : Z * Z :=
  let wm := if L <? W then L / 2 else W in
  (L - wm, wm).

(** The latency the budget is computed for. *)
Definition budget_latency (u : userdata) : Z :=
  let req := pa_source_get_requested_latency_within_thread (source u) in
  if req =? PA_USEC_INVALID
  then pa_bytes_to_usec (hwbuf_size u) (spec_of u)
  else req.

(** The overrun adjuster in the words of the design, over unbounded
    integers: step 1 raises the watermark and re-clamps it into
    [min_wakeup, (hwbuf_size - hwbuf_unused) - min_sleep]; step 2, taken only
    when step 1 changed nothing, raises the minimum latency of the source;
    step 3 changes nothing. *)
Definition overrun_adjuster_spec (u : userdata) : userdata :=
  let raised :=
    Z.min (2 * tsched_watermark u) (tsched_watermark u + watermark_step u) in
  let clamped :=
    Z.max (min_wakeup u)
          (Z.min raised (hwbuf_size u - hwbuf_unused u - min_sleep u)) in
  if clamped =? tsched_watermark u then
    let old := thread_info_min_latency (source u) in
    let max := thread_info_max_latency (source u) in
    let new := Z.min (Z.min (2 * old) (old + 10 * 1000)) max in
    if new =? old then u
    else
      log_call (Call_set_latency_range new max)
        (set_source (pa_source_set_latency_range_within_thread (source u) new max) u)
  else set_tsched_watermark clamped u.

(** The fields of the state are values of their C types and the geometry is
    consistent: the unused part lies within the buffer and [min_sleep] within
    the usable part. *)
Definition geometry_wf (u : userdata) : Prop :=
  in_u64 (hwbuf_size u) /\
  0 <= hwbuf_unused u <= hwbuf_size u /\
  0 <= min_sleep u <= hwbuf_size u - hwbuf_unused u /\
  in_u64 (min_wakeup u) /\
  in_u64 (tsched_watermark u) /\
  in_u64 (watermark_step u) /\
  in_u64 (thread_info_min_latency (source u)) /\
  in_u64 (thread_info_max_latency (source u)).

(** Doubling or stepping the watermark and the minimum latency stays within
    64 bits. *)
Definition no_wrap_on_raise (u : userdata) : Prop :=
  2 * tsched_watermark u < UINT64_MOD /\
  tsched_watermark u + watermark_step u < UINT64_MOD /\
  2 * thread_info_min_latency (source u) < UINT64_MOD /\
  thread_info_min_latency (source u) + 10 * 1000 < UINT64_MOD.




(** Collaborators return values of their C types. *)
Definition usec_typed : Prop :=
  (forall l ss, in_u64 (pa_bytes_to_usec l ss)) /\
  (forall s, in_u64 (pa_source_get_requested_latency_within_thread s)).


(** ** Reading the call log *)

(** The result of the most recent avail query of a log. *)
Fixpoint newest_avail (cs : list call) : option Z :=
  match cs with
  | [] => None
  | Call_avail n :: _ => Some n
  | _ :: older => newest_avail older
  end.

(** The result of the first avail query that succeeded, in a log read from
    its oldest entry on. *)
Fixpoint first_avail (oldest_first : list call) : option Z :=
  match oldest_first with
  | [] => None
  | Call_avail n :: later => if n <? 0 then first_avail later else Some n
  | _ :: later => first_avail later
  end.

(** Bytes of the chunks posted downstream. *)
Fixpoint posted_bytes (cs : list call) : Z :=
  match cs with
  | [] => 0
  | Call_source_post length :: older => length + posted_bytes older
  | _ :: older => posted_bytes older
  end.

(** A commit of the mmap path that succeeded. *)
Definition commit_ok (c : call) : bool :=
  match c with
  | Call_mmap_commit _ _ sframes => 0 <=? sframes
  | _ => false
  end.

(** A read of the copy path that delivered frames. *)
Definition read_ok (c : call) : bool :=
  match c with
  | Call_readi _ result => 0 <? result
  | _ => false
  end.

(** Bytes taken from the device by a call: the frames of a successful
    commit, or the frames a read delivered. *)
Definition transferred (fs : Z) (c : call) : option Z :=
  match c with
  | Call_mmap_commit _ frames sframes =>
      if 0 <=? sframes then Some (u64 (frames * fs)) else None
  | Call_readi _ result =>
      if 0 <? result then Some (u64 (u64 result * fs)) else None
  | _ => None
  end.

(** Bytes of the chunks whose commit or read succeeded. *)
Fixpoint committed_bytes (fs : Z) (cs : list call) : Z :=
  match cs with
  | [] => 0
  | c :: older =>
      match transferred fs c with
      | Some b => b + committed_bytes fs older
      | None => committed_bytes fs older
      end
  end.

(** Bytes of the chunks that were posted and whose commit then failed. *)
Fixpoint uncommitted_bytes (fs : Z) (cs : list call) : Z :=
  match cs with
  | [] => 0
  | Call_mmap_commit _ frames sframes :: older =>
      if 0 <=? sframes then uncommitted_bytes fs older
      else u64 (frames * fs) + uncommitted_bytes fs older
  | _ :: older => uncommitted_bytes fs older
  end.

(** [read_count] after the calls of a log (newest first), each transfer
    added in 64-bit arithmetic. *)
Fixpoint read_count_after (fs : Z) (cs : list call) (rc : Z) : Z :=
  match cs with
  | [] => rc
  | c :: older =>
      match transferred fs c with
      | Some b => u64 (read_count_after fs older rc + b)
      | None => read_count_after fs older rc
      end
  end.

(** [left_to_record] for an avail result of [n] frames. *)
Definition left_to_record_of (u : userdata) (n : Z) : Z :=
  snd (check_left_to_record u (u64 (u64 n * frame_size u))).

(** The budgets a capture path works with: zero unless timer scheduling is
    enabled. *)
Definition process_budget (u : userdata) : Z :=
  if use_tsched u then snd (snd (hw_sleep_time u)) else 0.

Definition sleep_budget (u : userdata) : Z :=
  if use_tsched u then fst (snd (hw_sleep_time u)) else 0.

(** The fields no capture path writes. *)
Definition geometry_of (u : userdata) : Z * Z * Z * bool * bool :=
  (frame_size u, hwbuf_size u, hwbuf_unused u, use_tsched u, use_mmap u).

(** Changing the latency range of the source leaves its sample spec alone. *)
Definition latency_range_keeps_spec : Prop :=
  forall s min_latency max_latency,
    sample_spec (pa_source_set_latency_range_within_thread s min_latency max_latency)
    = sample_spec s.

(** The outer loop the two capture paths share, over the inner loop of
    either. *)
Fixpoint capture_loop (inner : nat -> userdata -> Z -> bool -> option inner_exit)
    (fuel : nat) (u : userdata) (polled : bool) (j : Z)
    (work_done : bool) (process_usec max_sleep_usec : Z) : option loop_exit :=
  match fuel with
  | O => None
  | S fuel =>
    match with_pcm u (fun d => pa_alsa_safe_avail d (hwbuf_size u) (spec_of u)) with
    | None => None
    | Some (u, n) =>
      let u := log_call (Call_avail n) u in
      if n <? 0 then
        match try_recover u (s32 n) with
        | None => None
        | Some (u, r) =>
          if r =? 0
          then capture_loop inner fuel u polled j work_done process_usec max_sleep_usec
          else Some (Loop_return u r)
        end
      else
        let n_bytes := u64 (u64 n * frame_size u) in
        let (u, left_to_record) := check_left_to_record u n_bytes in
        if use_tsched u && negb polled &&
           (pa_bytes_to_usec left_to_record (spec_of u)
              >? u64 (process_usec + max_sleep_usec / 2))
        then Some (Loop_break u work_done left_to_record)
        else if n_bytes <=? 0
        then Some (Loop_break u work_done left_to_record)
        else
          let j := u32 (j + 1) in
          if j >? 10
          then Some (Loop_break u work_done left_to_record)
          else
            match inner fuel u n_bytes work_done with
            | None => None
            | Some (Inner_return u r) => Some (Loop_return u r)
            | Some (Inner_break u work_done) =>
                capture_loop inner fuel u false j work_done process_usec max_sleep_usec
            end
    end
  end.

(** What a run of a loop does to the state, [new] being the calls it
    issued: the log grows by [new], the geometry stays, [read_count] takes up
    the transfers of [new], and every posted byte is either committed or
    belongs to a chunk whose commit failed. *)
Definition path_effect (u u' : userdata) (new : list call) : Prop :=
  calls u' = new ++ calls u /\
  geometry_of u' = geometry_of u /\
  read_count u' = read_count_after (frame_size u) new (read_count u) /\
  posted_bytes new =
    committed_bytes (frame_size u) new + uncommitted_bytes (frame_size u) new.

(** A sequence of capture iterations of the thread; between two iterations
    the device moves on by itself. *)
Inductive capture_run : userdata -> userdata -> Prop :=
| capture_run_done (u : userdata) : capture_run u u
| capture_run_step (u u1 u2 : userdata) (fuel : nat) (polled : bool)
    (r sleep_usec : Z) (d : option snd_pcm_t) :
    thread_func_read fuel u polled = Some (u1, (r, sleep_usec)) ->
    capture_run (set_pcm_handle d u1) u2 ->
    capture_run u u2.

End EngineSpec.

(* ===================================================================== *)
(** * A concrete environment: 16-bit samples and a scripted driver *)
(* ===================================================================== *)

Module Demo.

(** Sample-spec arithmetic for 16-bit samples, as pulse/sample.c computes
    it, with the results converted to their 64-bit types; the channel count
    is a [uint8_t]. *)
Definition frame_size_of (ss : pa_sample_spec) : Z := 2 * (ss_channels ss mod 256).

Definition bytes_to_usec (l : Z) (ss : pa_sample_spec) : Z :=
  u64 (u64 (l / frame_size_of ss * 1000000) / ss_rate ss).

Definition usec_to_bytes (t : Z) (ss : pa_sample_spec) : Z :=
  u64 (u64 (t * ss_rate ss) / 1000000 * frame_size_of ss).

Definition frame_align (l : Z) (ss : pa_sample_spec) : Z :=
  l / frame_size_of ss * frame_size_of ss.

Definition sample_spec_equal (a b : pa_sample_spec) : bool :=
  (ss_format a =? ss_format b) && (ss_rate a =? ss_rate b)
  && (ss_channels a =? ss_channels b).

Definition clamp (x low high : Z) : Z :=
  if x >? high then high else if x <? low then low else x.

#[export] Instance sample_ops : SampleOps := {|
  pa_bytes_to_usec := bytes_to_usec;
  pa_usec_to_bytes := usec_to_bytes;
  pa_bytes_to_usec_round_up := bytes_to_usec;
  pa_usec_to_bytes_round_up := usec_to_bytes;
  pa_frame_align := frame_align;
  pa_sample_spec_equal := sample_spec_equal;
  PA_CLAMP := clamp
|}.

(** A source object that stores what it is told. *)
Definition set_latency_range (s : pa_source) (min_latency max_latency : Z) : pa_source :=
  mk_source (sample_spec s) (thread_info_state s) min_latency max_latency
    (thread_info_requested_latency s).

Definition process_msg (s : pa_source) (m : message) : pa_source * Z :=
  match m with
  | PA_SOURCE_MESSAGE_SET_STATE st =>
      (mk_source (sample_spec s) st (thread_info_min_latency s)
         (thread_info_max_latency s) (thread_info_requested_latency s), 0)
  | _ => (s, 0)
  end.

#[export] Instance source_ops : SourceOps := {|
  pa_source_get_requested_latency_within_thread :=
    fun s => u64 (thread_info_requested_latency s);
  pa_source_set_latency_range_within_thread := set_latency_range;
  pa_source_process_msg := process_msg
|}.

(** A scripted PCM device: [avail_script] lists the results of the coming
    avail queries (0 once it is used up); [commit_script] and [readi_script]
    list the outcome of the coming commits and reads, a negative entry being
    the error returned and any other entry (or none) a full success. *)
Record pcm := mk_pcm {
  avail_script : list Z;
  commit_script : list Z;
  readi_script : list Z
}.

Definition scripted (script : list Z) (ok : Z) : list Z * Z :=
  match script with
  | [] => ([], ok)
  | r :: rest => (rest, if r <? 0 then r else ok)
  end.

Definition avail (d : pcm) (hwbuf_size : Z) (ss : pa_sample_spec) : pcm * Z :=
  match avail_script d with
  | [] => (d, 0)
  | n :: rest => (mk_pcm rest (commit_script d) (readi_script d), n)
  end.

Definition mmap_begin (d : pcm) (frames hwbuf_size : Z) (ss : pa_sample_spec)
  : pcm * mmap_begin_result :=
  (d, mk_mmap_begin 0 0 frames 0 (8 * frame_size_of ss)).

Definition mmap_commit (d : pcm) (offset frames : Z) : pcm * Z :=
  let (rest, r) := scripted (commit_script d) frames in
  (mk_pcm (avail_script d) rest (readi_script d), r).

Definition readi (d : pcm) (frames : Z) : pcm * Z :=
  let (rest, r) := scripted (readi_script d) frames in
  (mk_pcm (avail_script d) (commit_script d) rest, r).

#[export] Instance driver : Driver := {|
  snd_pcm_t := pcm;
  EAGAIN := 11;
  snd_pcm_open := inl (mk_pcm [] [] []);
  pa_alsa_safe_avail := avail;
  snd_pcm_recover := fun d err => (d, 0);
  snd_pcm_start := fun d => d;
  pa_alsa_safe_mmap_begin := mmap_begin;
  snd_pcm_mmap_commit := mmap_commit;
  snd_pcm_readi := readi;
  pa_alsa_set_hw_params := fun d hp buffer_size => (d, (0, hp));
  pa_alsa_set_sw_params := fun d avail_min => (d, 0);
  pa_alsa_build_pollfd := fun d => Some (rtpoll_item 1);
  pa_mempool_block_size_max := 65536;
  pa_memblock_new_length := 65536
|}.

(** A smoother that follows the wall clock with a fixed offset. *)
#[export] Instance smoother_ops : Smoother := {|
  pa_smoother := Z;
  pa_smoother_get := fun offset x => x - offset;
  pa_smoother_pause := fun offset x => offset;
  pa_smoother_resume := fun offset x => offset
|}.

(** s16le, 2 channels, 44100 Hz. *)
Definition cd_spec : pa_sample_spec := mk_sample_spec 3 44100 2.

Definition demo_source (requested_latency : Z) : pa_source :=
  mk_source cd_spec PA_SOURCE_RUNNING 10000 92879 requested_latency.

(** 4 fragments of 4096 bytes, a watermark of 20 ms, a step of 10 ms; the
    device is open and runs the script [d]. *)
Definition demo_userdata (d : option pcm) (tsched : bool) (requested_latency : Z)
  : userdata :=
  mk_userdata (demo_source requested_latency) d 31 0
    4 4096 16384 3528 0 1764 704 1764 4 true tsched
    (Some (rtpoll_item 1)) 0 0 [].

End Demo.

(* ===================================================================== *)
(** * Properties of the buffer geometry and of the wakeup budget *)
(* ===================================================================== *)

Lemma u64_small (z : Z) : in_u64 z -> u64 z = z.
Proof. intros H. unfold u64. apply Z.mod_small. exact H. Qed.

Lemma u64_range (z : Z) : in_u64 (u64 z).
Proof. unfold in_u64, u64, UINT64_MOD. apply Z.mod_pos_bound. lia. Qed.

Lemma PA_MIN_min (a b : Z) : PA_MIN a b = Z.min a b.
Proof. unfold PA_MIN. destruct (Z.ltb_spec a b); lia. Qed.

Section GeometryProperties.

Context {sample_ops : SampleOps} {source_ops : SourceOps}
        {driver : Driver} {smoother_ops : Smoother}.

Lemma fix_tsched_watermark_spec (u : userdata) :
  in_u64 (hwbuf_size u) ->
  0 <= hwbuf_unused u <= hwbuf_size u ->
  0 <= min_sleep u <= hwbuf_size u - hwbuf_unused u ->
  fix_tsched_watermark u =
  let w := Z.max (min_wakeup u)
             (Z.min (tsched_watermark u) (hwbuf_size u - hwbuf_unused u - min_sleep u)) in
  if w =? tsched_watermark u then u else set_tsched_watermark w u.
Proof.
  intros Hs Hu Hm. unfold fix_tsched_watermark, max_use_of.
  rewrite (u64_small (hwbuf_size u - hwbuf_unused u)) by (unfold in_u64 in *; lia).
  rewrite (u64_small (hwbuf_size u - hwbuf_unused u - min_sleep u))
    by (unfold in_u64 in *; lia).
  cbv zeta.
  destruct (Z.gtb_spec (tsched_watermark u) (hwbuf_size u - hwbuf_unused u - min_sleep u));
    cbn [tsched_watermark set_tsched_watermark min_wakeup];
    match goal with |- context [?a <? ?b] => destruct (Z.ltb_spec a b) end;
    match goal with |- context [?a =? ?b] => destruct (Z.eqb_spec a b) end;
    try lia; try reflexivity; try (f_equal; lia).
  - destruct u; cbn in *. unfold set_tsched_watermark; cbn. f_equal. lia.
  - destruct u; cbn in *. unfold set_tsched_watermark; cbn. f_equal. lia.
Qed.

Lemma budget_latency_range (u : userdata) :
  usec_typed -> in_u64 (budget_latency u).
Proof.
  intros [Hb Hr]. unfold budget_latency.
  destruct (_ =? _); [apply Hb | apply Hr].
Qed.

Lemma hw_sleep_time_eq (u : userdata) :
  usec_typed ->
  hw_sleep_time u =
  (budget_latency u,
   wakeup_budget_spec (budget_latency u)
     (pa_bytes_to_usec (tsched_watermark u) (spec_of u))).
Proof.
  intros Ht. pose proof (budget_latency_range u Ht) as HL.
  destruct Ht as [Hb _]. specialize (Hb (tsched_watermark u) (spec_of u)).
  unfold hw_sleep_time, wakeup_budget_spec. fold (budget_latency u).
  cbv zeta. rewrite Z.gtb_ltb.
  set (L := budget_latency u) in *.
  set (W := pa_bytes_to_usec (tsched_watermark u) (spec_of u)) in *.
  assert (0 <= L / 2 <= L) by (split; [apply Z.div_pos | apply Z.div_le_upper_bound];
                               unfold in_u64 in *; lia).
  destruct (Z.ltb_spec L W); rewrite u64_small; try reflexivity;
    unfold in_u64 in *; lia.
Qed.

(** C2. For every state of the engine, [hw_sleep_time] yields
    [sleep = L - wm] and [process = wm], where [L] is the latency requested
    downstream, or the time of the full hardware buffer when none is
    requested, and [wm] is the watermark in time form, replaced by [L/2]
    whenever it exceeds [L]. *)
Theorem hw_sleep_time_budget (u : userdata) :
  usec_typed ->
  let req := pa_source_get_requested_latency_within_thread (source u) in
  let L := if req =? PA_USEC_INVALID
           then pa_bytes_to_usec (hwbuf_size u) (spec_of u) else req in
  let W := pa_bytes_to_usec (tsched_watermark u) (spec_of u) in
  let wm := if L <? W then L / 2 else W in
  hw_sleep_time u = (L, (L - wm, wm)).
Proof.
  intros Ht. cbv zeta. rewrite (hw_sleep_time_eq u Ht). reflexivity.
Qed.

Lemma set_tsched_watermark_same (u : userdata) :
  set_tsched_watermark (tsched_watermark u) u = u.
Proof. destruct u; reflexivity. Qed.

Lemma adjust_after_overrun_refines (u : userdata) :
  geometry_wf u -> no_wrap_on_raise u ->
  adjust_after_overrun u = overrun_adjuster_spec u.
Proof.
  intros (Hs & Hu & Hm & Hw & Ht & Hst & Hl & Hx) (N1 & N2 & N3 & N4).
  unfold adjust_after_overrun, overrun_adjuster_spec. cbv zeta.
  rewrite fix_tsched_watermark_spec;
    cbn [hwbuf_size hwbuf_unused min_sleep min_wakeup tsched_watermark
         set_tsched_watermark]; try assumption.
  rewrite !PA_MIN_min.
  rewrite (u64_small (tsched_watermark u * 2)) by (unfold in_u64 in *; lia).
  rewrite (u64_small (tsched_watermark u + watermark_step u))
    by (unfold in_u64 in *; lia).
  replace (tsched_watermark u * 2) with (2 * tsched_watermark u) by lia.
  set (raised := Z.min (2 * tsched_watermark u) (tsched_watermark u + watermark_step u)).
  set (clamped := Z.max (min_wakeup u)
                    (Z.min raised (hwbuf_size u - hwbuf_unused u - min_sleep u))).
  assert (Hsrc : forall w, source (set_tsched_watermark w u) = source u)
    by reflexivity.
  assert (Hset : forall w w', set_tsched_watermark w (set_tsched_watermark w' u)
                              = set_tsched_watermark w u) by reflexivity.
  destruct (Z.eqb_spec clamped raised) as [E1|E1];
    cbn [tsched_watermark set_tsched_watermark];
    rewrite ?Hset, ?Hsrc;
    [rewrite E1; rewrite (Z.eqb_sym (tsched_watermark u) raised)
    |rewrite (Z.eqb_sym (tsched_watermark u) clamped)];
    match goal with |- context [?a =? tsched_watermark u] =>
      destruct (Z.eqb_spec a (tsched_watermark u)) as [E2|E2] end;
    cbn [negb]; try reflexivity;
    rewrite (u64_small (thread_info_min_latency (source u) * 2))
      by (unfold in_u64 in *; lia);
    rewrite (u64_small (thread_info_min_latency (source u) + TSCHED_WATERMARK_STEP_USEC))
      by (unfold in_u64, TSCHED_WATERMARK_STEP_USEC, PA_USEC_PER_MSEC in *; lia);
    replace (thread_info_min_latency (source u) * 2)
      with (2 * thread_info_min_latency (source u)) by lia;
    change TSCHED_WATERMARK_STEP_USEC with (10 * 1000);
    rewrite E2, set_tsched_watermark_same;
    match goal with |- context [Z.min (Z.min ?a ?b) ?c] =>
      set (new := Z.min (Z.min a b) c) end;
    rewrite (Z.eqb_sym _ new);
    destruct (Z.eqb_spec new (thread_info_min_latency (source u)));
    reflexivity.
Qed.

(** C1. When avail reports strictly more bytes than the usable buffer and
    timer scheduling is enabled, [check_left_to_record] returns 0 and leaves
    the state the overrun adjuster of the design produces: the watermark set
    to min(2*watermark, watermark + watermark_step), re-clamped under the
    geometry invariants, and nothing else if that changed it; otherwise the
    minimum latency of the source set to min(2*old, old + 10 ms) capped by
    the maximum latency, if that changes it; otherwise nothing. *)
Theorem overrun_adjuster_steps (u : userdata) (n_bytes : Z) :
  geometry_wf u -> no_wrap_on_raise u ->
  use_tsched u = true ->
  hwbuf_size u - hwbuf_unused u < n_bytes ->
  check_left_to_record u n_bytes = (overrun_adjuster_spec u, 0).
Proof.
  intros Hwf Hnw Hts Hn. unfold check_left_to_record.
  pose proof Hwf as (Hs & Hu & _).
  rewrite (u64_small (hwbuf_size u - hwbuf_unused u)) by (unfold in_u64 in *; lia).
  destruct (Z.leb_spec n_bytes (hwbuf_size u - hwbuf_unused u)); [lia|].
  rewrite Hts, adjust_after_overrun_refines by assumption.
  reflexivity.
Qed.

(** [fix_tsched_watermark] touches the watermark only. *)
Lemma fix_tsched_watermark_frame (u : userdata) :
  exists w, fix_tsched_watermark u = set_tsched_watermark w u.
Proof.
  unfold fix_tsched_watermark.
  repeat match goal with |- context [if ?c then _ else _] => destruct c end;
    eexists; try reflexivity.
  symmetry; apply set_tsched_watermark_same.
Qed.



(** Fields the two fix functions leave alone. *)
Lemma fix_min_sleep_wakeup_fields (u : userdata) :
  hwbuf_size (fix_min_sleep_wakeup u) = hwbuf_size u /\
  hwbuf_unused (fix_min_sleep_wakeup u) = hwbuf_unused u /\
  frame_size (fix_min_sleep_wakeup u) = frame_size u /\
  use_tsched (fix_min_sleep_wakeup u) = use_tsched u /\
  pcm_handle (fix_min_sleep_wakeup u) = pcm_handle u.
Proof. repeat split. Qed.


Lemma hwbuf_unused_fix (u : userdata) :
  hwbuf_unused (fix_tsched_watermark (fix_min_sleep_wakeup u)) = hwbuf_unused u.
Proof.
  destruct (fix_tsched_watermark_frame (fix_min_sleep_wakeup u)) as [w Ew].
  rewrite Ew. reflexivity.
Qed.














End GeometryProperties.

(* ===================================================================== *)
(** * The properties at work on the concrete environment *)
(* ===================================================================== *)

Import Demo.

(** Closed arithmetic facts, by evaluation. *)
Ltac by_evaluation :=
  vm_compute; repeat split; solve [discriminate | reflexivity].

Lemma demo_usec_typed :
  @usec_typed Demo.sample_ops Demo.source_ops.
Proof. split; intros; apply u64_range. Qed.


(** With a requested latency of 50 ms and the 20 ms watermark the budget is
    30 ms of sleep and 20 ms of processing. *)
Lemma hw_sleep_time_budget_witness :
  hw_sleep_time (Demo.demo_userdata None true 50000) = (50000, (30000, 20000)).
Proof.
  exact (hw_sleep_time_budget (Demo.demo_userdata None true 50000) demo_usec_typed).
Defined.

(** An overrun on the demo geometry: avail reports 20000 bytes for a usable
    buffer of 16384, and the watermark goes from 3528 to 5292 bytes. *)
Lemma overrun_adjuster_steps_witness :
  check_left_to_record (Demo.demo_userdata None true 50000) 20000
  = (set_tsched_watermark 5292 (Demo.demo_userdata None true 50000), 0).
Proof.
  refine (overrun_adjuster_steps (Demo.demo_userdata None true 50000) 20000 _ _ _ _).
  - by_evaluation.
  - by_evaluation.
  - reflexivity.
  - by_evaluation.
Defined.

